(** * Skill-profile radar chart: axis store and comment generator

    A shallow embedding of [src/App.tsx]: the helpers [clamp], [uid] and
    [phraseForValue], the report builder [generateComment], and the four
    updaters of the axis collection held by the [App] component
    ([addAxis], [removeAxis], [updateLabel], [updateValue]).

    A JavaScript [number] is an IEEE 754 binary64 value, so it is embedded as
    Rocq's primitive [float]; a JavaScript string is embedded as the byte
    string of its UTF-8 encoding. *)

From Stdlib Require Import ZArith List Bool Lia.
From Stdlib Require Import Ascii String DecimalString.
From Stdlib Require Import Uint63 Floats.
Import ListNotations.

Local Open Scope list_scope.
Local Open Scope string_scope.

(** ** The parts of the JavaScript runtime the program uses *)

Module JS.

Definition number := float.
#[global] Bind Scope float_scope with number.

(** The line feed written [\n] in the source. *)
Definition LF : string := String (ascii_of_nat 10) EmptyString.

(** Truthiness of a string: only the empty string is falsy. *)
Definition truthy (s : string) : bool :=
  match s with
  | EmptyString => false
  | String _ _ => true
  end.

(** *** [Math.max] and [Math.min] (ECMA-262, 21.3.2.24 and 21.3.2.25)

    A NaN argument makes the result NaN; otherwise the arguments are scanned
    from the left, starting from the infinity of the opposite sign, with
    [+0] counted as larger than [-0]. *)

Definition is_pos_zero (x : number) : bool :=
  match classify x with PZero => true | _ => false end.

Definition is_neg_zero (x : number) : bool :=
  match classify x with NZero => true | _ => false end.

Definition max_step (highest x : number) : number :=
  if (highest <? x)%float then x
  else if is_pos_zero x && is_neg_zero highest then x
  else highest.

Definition min_step (lowest x : number) : number :=
  if (x <? lowest)%float then x
  else if is_neg_zero x && is_pos_zero lowest then x
  else lowest.

Definition Math_max (a b : number) : number :=
  if is_nan a || is_nan b then nan
  else max_step (max_step neg_infinity a) b.

Definition Math_min (a b : number) : number :=
  if is_nan a || is_nan b then nan
  else min_step (min_step infinity a) b.

(** *** Exact values

    A finite non-zero number is [m * 2^e]; its magnitude is kept as a
    fraction of two positive integers so that the decimal conversions below
    are computed exactly, as the standard defines them. *)

Record frac := Frac { fnum : Z; fden : Z }.

Definition frac_of (m : positive) (e : Z) : frac :=
  match e with
  | Z0 => Frac (Zpos m) 1
  | Zpos p => Frac (Zpos m * 2 ^ Zpos p) 1
  | Zneg p => Frac (Zpos m) (2 ^ Zpos p)
  end.

Definition frac_leb (a b : frac) : bool :=
  (fnum a * fden b <=? fnum b * fden a)%Z.

Definition frac_ltb (a b : frac) : bool :=
  (fnum a * fden b <? fnum b * fden a)%Z.

(** [s * 10^p] for an integer [s] and a possibly negative power [p]. *)
Definition dec (s p : Z) : frac :=
  match p with
  | Zneg q => Frac s (10 ^ Zpos q)
  | _ => Frac (s * 10 ^ p) 1
  end.

(** [x / 10^p] rounded down to an integer. *)
Definition scale_floor (x : frac) (p : Z) : Z :=
  match p with
  | Zneg q => (fnum x * 10 ^ Zpos q / fden x)%Z
  | _ => (fnum x / (fden x * 10 ^ p))%Z
  end.

(** Distance between two fractions. *)
Definition frac_dist (a b : frac) : frac :=
  Frac (Z.abs (fnum a * fden b - fnum b * fden a)) (fden a * fden b).

Definition digits (n : Z) : string := NilZero.string_of_uint (N.to_uint (Z.to_N n)).

Fixpoint zeros (n : nat) : string :=
  match n with
  | O => EmptyString
  | S k => String "0" (zeros k)
  end.

(** *** [Number::toString] in radix 10 (ECMA-262, 6.1.6.1.20) *)

(** The reals that round to [m * 2^e] form an interval around it: half the
    gap to the next number above, half the gap to the previous number below
    (the gap below is halved again at a power of two), the end points
    included exactly when [m] is even. *)
Definition rounds_to (m : positive) (e : Z) (r : frac) : bool :=
  let hi := frac_of (2 * m + 1) (e - 1) in
  let lo :=
    if (Zpos m =? 2 ^ 52)%Z && (-1074 <? e)%Z
    then frac_of (4 * m - 1) (e - 2)
    else frac_of (2 * m - 1) (e - 1) in
  if Z.even (Zpos m)
  then frac_leb lo r && frac_leb r hi
  else frac_ltb lo r && frac_ltb r hi.

(** The integer [n] with [10^(n-1) <= x < 10^n]. *)
Fixpoint exponent10_up (fuel : nat) (x : frac) (n : Z) : Z :=
  match fuel with
  | O => n
  | S k => if frac_ltb x (dec 1 n) then n else exponent10_up k x (n + 1)
  end.

Fixpoint exponent10_down (fuel : nat) (x : frac) (n : Z) : Z :=
  match fuel with
  | O => n
  | S k => if frac_leb (dec 1 (n - 1)) x then n else exponent10_down k x (n - 1)
  end.

Definition exponent10 (x : frac) : Z :=
  if frac_leb (Frac 1 1) x
  then exponent10_up 400 x 1
  else exponent10_down 400 x 0.

(** The candidate with [k] digits, if one rounds to the number: the integers
    just below and just above [x / 10^(n-k)], the closer one first and the
    even one on a tie. *)
Definition candidate (m : positive) (e : Z) (n k : Z) : option Z :=
  let x := frac_of m e in
  let s1 := scale_floor x (n - k) in
  let s2 := (s1 + 1)%Z in
  let ok1 := (0 <? s1)%Z && rounds_to m e (dec s1 (n - k)) in
  let ok2 := rounds_to m e (dec s2 (n - k)) in
  let d1 := frac_dist x (dec s1 (n - k)) in
  let d2 := frac_dist x (dec s2 (n - k)) in
  match ok1, ok2 with
  | true, true =>
      if frac_ltb d1 d2 then Some s1
      else if frac_ltb d2 d1 then Some s2
      else if Z.even s1 then Some s1 else Some s2
  | true, false => Some s1
  | false, true => Some s2
  | false, false => None
  end.

(** The shortest digit string: the least [k] that has a candidate. *)
Fixpoint shortest (fuel : nat) (m : positive) (e : Z) (n k : Z) : Z * Z :=
  match fuel with
  | O => (scale_floor (frac_of m e) (n - k), k)
  | S f =>
      match candidate m e n k with
      | Some s => (s, k)
      | None => shortest f m e n (k + 1)
      end
  end.

(** [(s, k, n)] with [10^(k-1) <= s < 10^k] and [s * 10^(n-k)] the number. *)
Definition decimal_of (m : positive) (e : Z) : Z * Z * Z :=
  let n := exponent10 (frac_of m e) in
  let '(s, k) := shortest 17 m e n 1 in
  if (s =? 10 ^ k)%Z then (1%Z, 1%Z, (n + 1)%Z) else (s, k, n).

Definition format_decimal (s k n : Z) : string :=
  let ds := digits s in
  if (k <=? n)%Z && (n <=? 21)%Z then
    ds ++ zeros (Z.to_nat (n - k))
  else if (0 <? n)%Z && (n <=? 21)%Z then
    substring 0 (Z.to_nat n) ds ++ "." ++ substring (Z.to_nat n) (Z.to_nat (k - n)) ds
  else if (-6 <? n)%Z && (n <=? 0)%Z then
    "0." ++ zeros (Z.to_nat (- n)) ++ ds
  else
    let ex := (n - 1)%Z in
    let sign := if (ex <? 0)%Z then "-" else "+" in
    if (k =? 1)%Z then
      ds ++ "e" ++ sign ++ digits (Z.abs ex)
    else
      substring 0 1 ds ++ "." ++ substring 1 (Z.to_nat (k - 1)) ds
        ++ "e" ++ sign ++ digits (Z.abs ex).

Definition Number_toString (x : number) : string :=
  match Prim2SF x with
  | S754_nan => "NaN"
  | S754_zero _ => "0"
  | S754_infinity false => "Infinity"
  | S754_infinity true => "-Infinity"
  | S754_finite sg m e =>
      let '(s, k, n) := decimal_of m e in
      (if sg then "-" else "") ++ format_decimal s k n
  end.

(** *** [Number.prototype.toFixed] (ECMA-262, 21.1.3.3) *)

Definition toFixed (x : number) (f : nat) : string :=
  match Prim2SF x with
  | S754_finite sg m e =>
      let v := frac_of m e in
      if frac_leb (dec 1 21) v then Number_toString x
      else
        (* the integer [n] nearest to [v * 10^f], the larger one on a tie *)
        let p := (10 ^ Z.of_nat f)%Z in
        let n := ((2 * fnum v * p + fden v) / (2 * fden v))%Z in
        let ds := digits n in
        let ds := zeros (S f - length ds) ++ ds in
        let k := length ds in
        (if sg then "-" else "")
          ++ match f with
             | O => ds
             | S _ => substring 0 (k - f) ds ++ "." ++ substring (k - f) f ds
             end
  | S754_zero _ =>
      match f with
      | O => "0"
      | S _ => "0." ++ zeros f
      end
  | _ => Number_toString x
  end.

(** The length of an array as a number. *)
Definition Array_length {A : Type} (l : list A) : number :=
  of_uint63 (Uint63.of_Z (Z.of_nat (List.length l))).

(** [Array.prototype.reduce] without an initial value, on an array whose
    first element is [a0]: the first element seeds the accumulator. *)
Definition Array_reduce1 {A : Type} (f : A -> A -> A) (a0 : A) (rest : list A) : A :=
  fold_left f rest a0.

(** [Array.prototype.slice(start, end)] for non-negative indices. *)
Definition Array_slice {A : Type} (l : list A) (start end_ : nat) : list A :=
  firstn (end_ - start) (skipn start l).

(** [Array.prototype.join]. *)
Definition Array_join (l : list string) (sep : string) : string :=
  String.concat sep l.

(** [String.prototype.slice(start, end)] for non-negative indices. *)
Definition String_slice (s : string) (start end_ : nat) : string :=
  substring start (end_ - start) s.

End JS.

Import JS.

(** ** The program *)

(** An axis of the profile, as the objects of [DEFAULT_AXES] and [addAxis]. *)
Record Axis := mkAxis { id : string; label : string; value : number }.

(** [const clamp = (n, min = 0, max = 5) => Math.max(min, Math.min(max, n))].
    Every call in the source leaves [min] and [max] to their defaults, written
    out here at the call sites. *)
Definition clamp (n min max : number) : number :=
  Math_max min (Math_min max n).

(** [const uid = () => Math.random().toString(36).slice(2, 9)].  The random
    draw is an input: [rnd36] is the text [Math.random().toString(36)]
    evaluated to, such as ["0.i"] for the draw [0.5]. *)
Definition uid (rnd36 : string) : string :=
  String_slice rnd36 2 9.

(** [DEFAULT_AXES], for the five draws its calls of [uid] make. *)
Definition DEFAULT_AXES (r1 r2 r3 r4 r5 : string) : list Axis :=
  [ mkAxis (uid r1) "スピード" 3;
    mkAxis (uid r2) "正確さ" 4;
    mkAxis (uid r3) "創造性" 3;
    mkAxis (uid r4) "継続力" 4;
    mkAxis (uid r5) "協調性" 3 ].

Definition phraseForValue (v : number) : string :=
  if (5 <=? v)%float then "非常に優秀"
  else if (4 <=? v)%float then "良好"
  else if (3 <=? v)%float then "平均的"
  else if (2 <=? v)%float then "改善の余地"
  else "要強化".

(** The local constants of [generateComment], each as a function of the
    (non-empty) array it is computed from. *)

Definition avg (axes : list Axis) : string :=
  toFixed
    (fold_left (fun acc a => acc + clamp (value a) 0 5)%float axes 0%float
       / Array_length axes)%float
    1.

Definition highest (a0 : Axis) (rest : list Axis) : Axis :=
  Array_reduce1 (fun p c => if (value p <? value c)%float then c else p) a0 rest.

Definition lowest (a0 : Axis) (rest : list Axis) : Axis :=
  Array_reduce1 (fun p c => if (value c <? value p)%float then c else p) a0 rest.

Definition bullet (a : Axis) : string :=
  "・" ++ label a ++ ": " ++ Number_toString (value a)
    ++ "（" ++ phraseForValue (value a) ++ "）".

Definition bullets (axes : list Axis) : string :=
  Array_join (map bullet axes) LF.

Definition suggestion (a : Axis) : string :=
  "- 「" ++ label a ++ "」向上のために、週1回の練習や確認を取り入れる。".

Definition suggestions (axes : list Axis) : string :=
  Array_join
    (map suggestion
       (Array_slice (filter (fun a => (value a <? 4)%float) axes) 0 3))
    LF.

(** The returned expression is a sum of five strings, and [+] associates to
    the left: the first four, the summary and the list of items, are summed
    before the conditional fifth is appended. *)
Definition report_head (a0 : Axis) (rest : list Axis) : string :=
  let axes := a0 :: rest in
  let highest := highest a0 rest in
  let lowest := lowest a0 rest in
  "【サマリー】" ++ LF
    ++ "平均スコアは" ++ avg axes ++ "。特に「" ++ label highest
    ++ "」が強み（" ++ Number_toString (value highest) ++ "）。"
    ++ " 一方で「" ++ label lowest ++ "」は相対的な弱点（"
    ++ Number_toString (value lowest) ++ "）。" ++ LF ++ LF
    ++ "【各項目】" ++ LF ++ bullets axes ++ LF ++ LF.

Definition generateComment (axes : list Axis) : string :=
  match axes with
  | [] => ""
  | a0 :: rest =>
      let suggestions := suggestions axes in
      report_head a0 rest
        ++ (if truthy suggestions
            then "【次の一歩】" ++ LF ++ suggestions ++ LF
            else "【次の一歩】" ++ LF ++ "現状維持でOK。強みをさらに伸ばしましょう。")
  end.

(** *** The [App] component's state and its updaters *)

Record AppState := mkApp {
  title : string;
  axes : list Axis;
  showRadiusTicks : bool;
  comment : string
}.

(** The functions handed to [setAxes]: each maps the previous array to the
    next one.  [addAxis] takes the draw its call of [uid] makes. *)

Definition addAxis (rnd36 : string) (prev : list Axis) : list Axis :=
  (prev ++ [mkAxis (uid rnd36) "新規項目" 3])%list.

Definition removeAxis (i : string) (prev : list Axis) : list Axis :=
  filter (fun a => negb (id a =? i)) prev.

Definition updateLabel (i : string) (l : string) (prev : list Axis) : list Axis :=
  map (fun a => if id a =? i then mkAxis (id a) l (value a) else a) prev.

Definition updateValue (i : string) (v : number) (prev : list Axis) : list Axis :=
  map (fun a => if id a =? i then mkAxis (id a) (label a) (clamp v 0 5) else a) prev.

Definition setComment (c : string) (st : AppState) : AppState :=
  mkApp (title st) (axes st) (showRadiusTicks st) c.

Definition handleGenerate (st : AppState) : AppState :=
  setComment (generateComment (axes st)) st.

(** The chart and the footer read a score as [clamp(Number(a.value) || 0)]:
    a falsy number (NaN or a zero) is replaced by [0] before clamping. *)
Definition or_zero (x : number) : number :=
  if is_nan x || (x =? 0)%float then 0%float else x.

Definition score (a : Axis) : number := clamp (or_zero (value a)) 0 5.


(** ** Notions used to state the properties *)

(** Membership of the closed range from 0 to 5. *)
Definition in_range (v : number) : bool := ((0 <=? v) && (v <=? 5))%float.

Definition all_in_range (l : list Axis) : bool :=
  forallb (fun a => in_range (value a)) l.

(** No value of the collection is NaN. *)
Definition no_NaN (l : list Axis) : bool :=
  forallb (fun a => negb (is_nan (value a))) l.

(** *** Sequences of updates of the collection *)

Inductive Op :=
| Add (rnd36 : string)
| Remove (i : string)
| UpdateLabel (i : string) (l : string)
| UpdateValue (i : string) (v : number).

Definition apply_op (prev : list Axis) (o : Op) : list Axis :=
  match o with
  | Add r => addAxis r prev
  | Remove i => removeAxis i prev
  | UpdateLabel i l => updateLabel i l prev
  | UpdateValue i v => updateValue i v prev
  end.

Definition run (ops : list Op) (start : list Axis) : list Axis :=
  fold_left apply_op ops start.

(** The input of a value update is a number other than NaN. *)
Definition numeric_op (o : Op) : bool :=
  match o with
  | UpdateValue _ v => negb (is_nan v)
  | _ => true
  end.

(** *** Strings and lists *)

Fixpoint last_char (s : string) : option ascii :=
  match s with
  | EmptyString => None
  | String c EmptyString => Some c
  | String _ t => last_char t
  end.

(** The string ends with a line feed. *)
Definition ends_with_LF (s : string) : bool :=
  match last_char s with
  | Some c => Ascii.eqb c (ascii_of_nat 10)
  | None => false
  end.

Definition nonempty {A : Type} (l : list A) : bool :=
  match l with
  | [] => false
  | _ :: _ => true
  end.

(** *** The report, in the words of the specification *)

(** The axes the suggestions are made for: the first three, in the order of
    the collection, of those whose clamped value is below 4. *)
Definition qualifying_spec (axes : list Axis) : list Axis :=
  firstn 3 (filter (fun a => (clamp (value a) 0 5 <? 4)%float) axes).

(** The line suggested for an axis: one fixed text around the label of the
    axis, and nothing else of the axis. *)
Definition suggestion_line_spec (l : string) : string :=
  "- 「" ++ l ++ "」向上のために、週1回の練習や確認を取り入れる。".

(** The last section of the report: its heading, then one suggested line for
    each qualifying axis, each line followed by a line feed, or the one fixed
    message when no axis qualifies. *)
Definition next_steps_spec (axes : list Axis) : string :=
  "【次の一歩】" ++ LF
    ++ match qualifying_spec axes with
       | [] => "現状維持でOK。強みをさらに伸ばしましょう。"
       | sel =>
           Array_join (map (fun a => suggestion_line_spec (label a)) sel) LF
             ++ LF
       end.

(** The strongest axis: the first whose clamped value is not exceeded by the
    clamped value of any axis.  The weakest: the first whose clamped value
    exceeds none. *)
Definition first_max_clamped_spec (axes : list Axis) : option Axis :=
  find (fun a =>
          forallb (fun b => (clamp (value b) 0 5 <=? clamp (value a) 0 5)%float) axes)
       axes.

Definition first_min_clamped_spec (axes : list Axis) : option Axis :=
  find (fun a =>
          forallb (fun b => (clamp (value a) 0 5 <=? clamp (value b) 0 5)%float) axes)
       axes.

(** The same two choices made on the raw values. *)
Definition first_max_spec (axes : list Axis) : option Axis :=
  find (fun a => forallb (fun b => (value b <=? value a)%float) axes) axes.

Definition first_min_spec (axes : list Axis) : option Axis :=
  find (fun a => forallb (fun b => (value a <=? value b)%float) axes) axes.

(** The collection with every value replaced by its clamped value. *)
Definition reclamped (axes : list Axis) : list Axis :=
  map (fun a => mkAxis (id a) (label a) (clamp (value a) 0 5)) axes.

(** The same labels and values in the same order, whatever the ids. *)
Definition same_content (l1 l2 : list Axis) : Prop :=
  map (fun a => (label a, value a)) l1 = map (fun a => (label a, value a)) l2.

(** An axis stripped of its id. *)
Definition anon (a : Axis) : Axis := mkAxis "" (label a) (value a).

(** One step of a scan that keeps the first extremum for the strict
    comparison [lt]: the callbacks of the two [reduce] calls are [scan] for
    [<] and for its converse. *)
Definition scan (lt : number -> number -> bool) (p c : Axis) : Axis :=
  if lt (value p) (value c) then c else p.

(** *** The order of the numbers other than NaN

    Every number other than NaN is given a rank, a triple of integers
    compared lexicographically, so that a comparison of two numbers becomes
    integer arithmetic. *)

Definition rank (x : spec_float) : Z * Z * Z :=
  match x with
  | S754_nan => (0, 0, 0)%Z
  | S754_zero _ => (0, 0, 0)%Z
  | S754_infinity true => (-2, 0, 0)%Z
  | S754_infinity false => (2, 0, 0)%Z
  | S754_finite false m e => (1, e, Zpos m)%Z
  | S754_finite true m e => (-1, - e, Zneg m)%Z
  end.

Definition rank_of (v : number) : Z * Z * Z := rank (Prim2SF v).

Definition lex_lt (a b : Z * Z * Z) : Prop :=
  let '(a1, a2, a3) := a in
  let '(b1, b2, b3) := b in
  (a1 < b1 \/ (a1 = b1 /\ (a2 < b2 \/ (a2 = b2 /\ a3 < b3))))%Z.

(** *** The chart data and the footer of [App] *)

Module Chart.

(** An element of [data], as the chart reads it. *)
Record datum := mkDatum { subject : string; score : number; fullMark : number }.

End Chart.

(** [data]: one element per axis, [{ subject: a.label || '無題',
    score: clamp(Number(a.value) || 0), fullMark: 5 }]; an empty label is
    falsy and gives the placeholder. *)
Definition data (axes : list Axis) : list Chart.datum :=
  map (fun a =>
         Chart.mkDatum (if truthy (label a) then label a else "無題") (score a) 5)
      axes.

(** The [avg] of [App], shown in the footer: the mean of the scores the
    chart reads.  (The [avg] above is the local constant of
    [generateComment].) *)
Definition App_avg (axes : list Axis) : number :=
  (fold_left (fun acc a => acc + score a) axes 0 / Array_length axes)%float.

(** The footer line [平均: {avg.toFixed(1)}]. *)
Definition footer (axes : list Axis) : string :=
  "平均: " ++ toFixed (App_avg axes) 1.

(** ** Facts about the comparisons of numbers *)

Ltac lex_solve :=
  repeat match goal with
         | p : (Z * Z * Z)%type |- _ => destruct p as [[? ?] ?]
         | H : (_, _) = (_, _) |- _ => injection H as ? ? ?
         end;
  unfold lex_lt in *; subst;
  try solve [ intuition (try discriminate; try lia)
            | repeat split; try reflexivity; lia ].

Section NumberOrder.

Local Open Scope float_scope.

(** The representations of the thresholds the program compares with. *)
Lemma Prim2SF_4 : Prim2SF 4 = S754_finite false 4503599627370496 (-50).
Proof. reflexivity. Qed.

Lemma Prim2SF_5 : Prim2SF 5 = S754_finite false 5629499534213120 (-50).
Proof. reflexivity. Qed.

Lemma Prim2SF_0 : Prim2SF 0 = S754_zero false.
Proof. reflexivity. Qed.

Lemma SFcompare_refl (x : spec_float) :
  x <> S754_nan -> SFcompare x x = Some Eq.
Proof.
  destruct x as [s | s | | s m e]; simpl; intros Hx;
    try congruence; try (destruct s; reflexivity).
  rewrite Z.compare_refl.
  change (Pos.compare_cont Eq m m) with (Pos.compare m m).
  rewrite Pos.compare_refl. destruct s; reflexivity.
Qed.

Lemma SFcompare_nan_r (x : spec_float) : SFcompare x S754_nan = None.
Proof. destruct x as [s | s | | s m e]; reflexivity. Qed.

(** There is one NaN. *)
Lemma is_nan_true (v : number) : is_nan v = true -> v = nan.
Proof.
  unfold is_nan. rewrite eqb_spec. intros H.
  apply Prim2SF_inj. change (Prim2SF nan) with S754_nan.
  destruct (Prim2SF v) as [s | s | | s m e] eqn:E; try reflexivity;
    unfold SFeqb in H; rewrite SFcompare_refl in H by discriminate;
    discriminate.
Qed.

Lemma is_nan_false (v : number) : is_nan v = false -> Prim2SF v <> S754_nan.
Proof.
  unfold is_nan. rewrite eqb_spec. intros H E. rewrite E in H. discriminate.
Qed.

(** *** Comparisons as comparisons of ranks *)

Lemma lex_lt_irrefl (a : Z * Z * Z) : ~ lex_lt a a.
Proof. lex_solve. Qed.

Lemma lex_lt_asym (a b : Z * Z * Z) : lex_lt a b -> ~ lex_lt b a.
Proof. lex_solve. Qed.

Lemma lex_lt_trans (a b c : Z * Z * Z) : lex_lt a b -> lex_lt b c -> lex_lt a c.
Proof. lex_solve. Qed.

Lemma lex_lt_total (a b : Z * Z * Z) : lex_lt a b \/ a = b \/ lex_lt b a.
Proof.
  destruct a as [[a1 a2] a3], b as [[b1 b2] b3]. unfold lex_lt.
  destruct (Z.compare_spec a1 b1); [ | lia | lia ].
  destruct (Z.compare_spec a2 b2); [ | lia | lia ].
  destruct (Z.compare_spec a3 b3); [ | lia | lia ].
  subst. auto.
Qed.

Lemma SFcompare_rank (x y : spec_float) :
  x <> S754_nan -> y <> S754_nan ->
  match SFcompare x y with
  | Some Lt => lex_lt (rank x) (rank y)
  | Some Eq => rank x = rank y
  | Some Gt => lex_lt (rank y) (rank x)
  | None => False
  end.
Proof.
  intros Hx Hy.
  destruct x as [sx | sx | | sx mx ex]; try congruence;
    destruct y as [sy | sy | | sy my ey]; try congruence;
    try destruct sx; try destruct sy;
    cbv beta iota delta [SFcompare rank lex_lt]; try reflexivity; try lia.
  - rewrite Pos.compare_cont_spec.
    destruct (Z.compare_spec ex ey); destruct (Pos.compare_spec mx my);
      cbn; subst; try reflexivity; lia.
  - rewrite Pos.compare_cont_spec.
    destruct (Z.compare_spec ex ey); destruct (Pos.compare_spec mx my);
      cbn; subst; try reflexivity; lia.
Qed.

Lemma SFltb_rank (x y : spec_float) :
  x <> S754_nan -> y <> S754_nan ->
  (SFltb x y = true <-> lex_lt (rank x) (rank y)).
Proof.
  intros Hx Hy. assert (H := SFcompare_rank x y Hx Hy). unfold SFltb.
  destruct (SFcompare x y) as [[ | | ] | ]; split; intros H1;
    try discriminate; try reflexivity; try assumption; try contradiction.
  - rewrite H in H1. now apply lex_lt_irrefl in H1.
  - now apply lex_lt_asym in H1.
Qed.

Lemma SFleb_rank (x y : spec_float) :
  x <> S754_nan -> y <> S754_nan ->
  (SFleb x y = true <-> lex_lt (rank x) (rank y) \/ rank x = rank y).
Proof.
  intros Hx Hy. assert (H := SFcompare_rank x y Hx Hy). unfold SFleb.
  destruct (SFcompare x y) as [[ | | ] | ]; split; intros H1;
    try discriminate; try reflexivity; try contradiction; auto.
  destruct H1 as [H1 | H1].
  - now apply lex_lt_asym in H1.
  - rewrite H1 in H. now apply lex_lt_irrefl in H.
Qed.

Lemma ltb_true_iff (x y : number) :
  (x <? y) = true
  <-> is_nan x = false /\ is_nan y = false /\ lex_lt (rank_of x) (rank_of y).
Proof.
  rewrite ltb_spec.
  destruct (is_nan x) eqn:Hx.
  { apply is_nan_true in Hx. subst x.
    split; [ discriminate | intros [H _]; discriminate ]. }
  destruct (is_nan y) eqn:Hy.
  { apply is_nan_true in Hy. subst y. change (Prim2SF nan) with S754_nan.
    unfold SFltb. rewrite SFcompare_nan_r.
    split; [ discriminate | intros (_ & H & _); discriminate ]. }
  rewrite (SFltb_rank _ _ (is_nan_false _ Hx) (is_nan_false _ Hy)).
  unfold rank_of. tauto.
Qed.

Lemma leb_true_iff (x y : number) :
  (x <=? y) = true
  <-> is_nan x = false /\ is_nan y = false
      /\ (lex_lt (rank_of x) (rank_of y) \/ rank_of x = rank_of y).
Proof.
  rewrite leb_spec.
  destruct (is_nan x) eqn:Hx.
  { apply is_nan_true in Hx. subst x.
    split; [ discriminate | intros [H _]; discriminate ]. }
  destruct (is_nan y) eqn:Hy.
  { apply is_nan_true in Hy. subst y. change (Prim2SF nan) with S754_nan.
    unfold SFleb. rewrite SFcompare_nan_r.
    split; [ discriminate | intros (_ & H & _); discriminate ]. }
  rewrite (SFleb_rank _ _ (is_nan_false _ Hx) (is_nan_false _ Hy)).
  unfold rank_of. tauto.
Qed.

(** *** The order laws the program relies on *)

Lemma ltb_leb (x y : number) : (x <? y) = true -> (x <=? y) = true.
Proof.
  intros (Hx & Hy & L)%ltb_true_iff. apply leb_true_iff. auto.
Qed.

(** Among numbers other than NaN, [x < y] fails exactly when [y <= x]. *)
Lemma ltb_false_leb (x y : number) :
  is_nan x = false -> is_nan y = false ->
  (x <? y) = false -> (y <=? x) = true.
Proof.
  intros Hx Hy H. apply leb_true_iff. repeat split; try assumption.
  destruct (lex_lt_total (rank_of x) (rank_of y)) as [L | [E | G]]; auto.
  assert (T : (x <? y) = true) by (apply ltb_true_iff; auto).
  congruence.
Qed.

Lemma ltb_leb_false (x y : number) : (x <? y) = true -> (y <=? x) = false.
Proof.
  intros (Hx & Hy & L)%ltb_true_iff.
  destruct (y <=? x) eqn:E; [ | reflexivity ].
  apply leb_true_iff in E as (_ & _ & [G | G]).
  - now apply lex_lt_asym in G.
  - rewrite G in L. now apply lex_lt_irrefl in L.
Qed.

Lemma leb_ltb_trans (x y z : number) :
  (x <=? y) = true -> (y <? z) = true -> (x <? z) = true.
Proof.
  intros (Hx & Hy & L1)%leb_true_iff (_ & Hz & L2)%ltb_true_iff.
  apply ltb_true_iff. repeat split; try assumption.
  destruct L1 as [L1 | L1]; [ eapply lex_lt_trans; eassumption | ].
  now rewrite L1.
Qed.

Lemma ltb_leb_trans (x y z : number) :
  (x <? y) = true -> (y <=? z) = true -> (x <? z) = true.
Proof.
  intros (Hx & Hy & L1)%ltb_true_iff (_ & Hz & L2)%leb_true_iff.
  apply ltb_true_iff. repeat split; try assumption.
  destruct L2 as [L2 | L2]; [ eapply lex_lt_trans; eassumption | ].
  now rewrite <- L2.
Qed.

Lemma leb_trans (x y z : number) :
  (x <=? y) = true -> (y <=? z) = true -> (x <=? z) = true.
Proof.
  intros (Hx & Hy & L1)%leb_true_iff (_ & Hz & L2)%leb_true_iff.
  apply leb_true_iff. repeat split; try assumption.
  destruct L1 as [L1 | L1], L2 as [L2 | L2].
  - left. eapply lex_lt_trans; eassumption.
  - left. now rewrite <- L2.
  - left. now rewrite L1.
  - right. congruence.
Qed.

Lemma leb_refl (x : number) : is_nan x = false -> (x <=? x) = true.
Proof. intros Hx. apply leb_true_iff. auto. Qed.

(** A comparison depends only on the ranks and on which side is NaN. *)
Lemma leb_rank_congr (x x' y y' : number) :
  is_nan x = is_nan x' -> is_nan y = is_nan y' ->
  rank_of x = rank_of x' -> rank_of y = rank_of y' ->
  (x <=? y) = (x' <=? y').
Proof.
  intros Hx Hy Rx Ry. apply eq_true_iff_eq.
  rewrite !leb_true_iff, Hx, Hy, Rx, Ry. reflexivity.
Qed.

End NumberOrder.

(** ** [clamp] with its default bounds *)

Section Clamp.

Local Open Scope float_scope.

Lemma clamp_nan : clamp nan 0 5 = nan.
Proof. reflexivity. Qed.

(** On a number other than NaN, [clamp] is the usual three-way choice. *)
Lemma clamp_cases (v : number) :
  is_nan v = false ->
  clamp v 0 5 = if v <? 5 then (if 0 <? v then v else 0) else 5.
Proof.
  intros Hv. unfold clamp, Math_min.
  change (is_nan 5) with false. rewrite Hv. cbn [orb].
  change (min_step infinity 5) with 5. unfold min_step.
  change (is_pos_zero 5) with false. rewrite andb_false_r.
  destruct (v <? 5) eqn:E5; [ | reflexivity ].
  unfold Math_max. change (is_nan 0) with false. rewrite Hv. cbn [orb].
  change (max_step neg_infinity 0) with 0. unfold max_step.
  change (is_neg_zero 0) with false. rewrite andb_false_r.
  reflexivity.
Qed.

Lemma clamp_in_range (v : number) :
  is_nan v = false -> in_range (clamp v 0 5) = true.
Proof.
  intros Hv. rewrite (clamp_cases v Hv). unfold in_range.
  destruct (v <? 5) eqn:E5; [ | reflexivity ].
  destruct (0 <? v) eqn:E0; [ | reflexivity ].
  rewrite (ltb_leb _ _ E0), (ltb_leb _ _ E5). reflexivity.
Qed.

Lemma clamp_idempotent (v : number) :
  clamp (clamp v 0 5) 0 5 = clamp v 0 5.
Proof.
  destruct (is_nan v) eqn:Hv.
  - apply is_nan_true in Hv. subst v. reflexivity.
  - rewrite (clamp_cases v Hv).
    destruct (v <? 5) eqn:E5; [ | reflexivity ].
    destruct (0 <? v) eqn:E0; [ | reflexivity ].
    rewrite (clamp_cases v Hv), E5, E0. reflexivity.
Qed.

(** Comparing with a threshold [t] between 0 (excluded) and 5 gives the same
    answer before and after [clamp]. *)
Lemma clamp_threshold (t v : number) :
  (0 <? t) = true -> (t <=? 5) = true ->
  (t <=? clamp v 0 5) = (t <=? v).
Proof.
  intros H0 H5.
  destruct (is_nan v) eqn:Hv.
  - apply is_nan_true in Hv. subst v. reflexivity.
  - rewrite (clamp_cases v Hv).
    destruct (v <? 5) eqn:E5.
    + destruct (0 <? v) eqn:E0; [ reflexivity | ].
      rewrite (ltb_leb_false 0 t H0).
      destruct (t <=? v) eqn:E; [ | reflexivity ].
      rewrite (ltb_leb_trans 0 t v H0 E) in E0. discriminate.
    + rewrite H5. symmetry. apply leb_trans with 5; [ exact H5 | ].
      apply ltb_false_leb; [ exact Hv | reflexivity | exact E5 ].
Qed.

Lemma clamp_lt_4 (v : number) : (clamp v 0 5 <? 4) = (v <? 4).
Proof.
  destruct (is_nan v) eqn:Hv.
  - apply is_nan_true in Hv. subst v. reflexivity.
  - assert (Hc : is_nan (clamp v 0 5) = false).
    { assert (R := clamp_in_range v Hv). unfold in_range in R.
      apply andb_true_iff in R as [R _].
      now apply leb_true_iff in R as (_ & R & _). }
    assert (T := clamp_threshold 4 v eq_refl eq_refl).
    destruct (v <? 4) eqn:E.
    + destruct (clamp v 0 5 <? 4) eqn:E'; [ reflexivity | ].
      apply ltb_false_leb in E'; [ | exact Hc | reflexivity ].
      rewrite E', (ltb_leb_false _ _ E) in T. discriminate.
    + apply ltb_false_leb in E; [ | exact Hv | reflexivity ].
      rewrite E in T.
      destruct (clamp v 0 5 <? 4) eqn:E'; [ | reflexivity ].
      rewrite (ltb_leb_false _ _ E') in T. discriminate.
Qed.

Lemma phraseForValue_clamp (v : number) :
  phraseForValue (clamp v 0 5) = phraseForValue v.
Proof.
  unfold phraseForValue.
  now rewrite !clamp_threshold by reflexivity.
Qed.

Lemma in_range_not_nan (v : number) : in_range v = true -> is_nan v = false.
Proof.
  unfold in_range. intros [H _]%andb_true_iff.
  now apply leb_true_iff in H as (_ & H & _).
Qed.

(** Inside the range [clamp] keeps the rank: it changes nothing but the
    sign of a zero. *)
Lemma clamp_rank_in_range (v : number) :
  in_range v = true -> rank_of (clamp v 0 5) = rank_of v.
Proof.
  intros Hr. assert (Hv := in_range_not_nan v Hr).
  rewrite (clamp_cases v Hv).
  apply andb_true_iff in Hr as [H0 H5].
  destruct (v <? 5) eqn:E5.
  - destruct (0 <? v) eqn:E0; [ reflexivity | ].
    apply leb_true_iff in H0 as (N0 & _ & [L | E]); [ | exact E ].
    assert (T : (0 <? v) = true) by (apply ltb_true_iff; auto).
    congruence.
  - apply leb_true_iff in H5 as (_ & N5 & [L | E]); [ | now symmetry ].
    assert (T : (v <? 5) = true) by (apply ltb_true_iff; auto).
    congruence.
Qed.

Lemma clamp_leb_in_range (x y : number) :
  in_range x = true -> in_range y = true ->
  (clamp x 0 5 <=? clamp y 0 5) = (x <=? y).
Proof.
  intros Hx Hy. apply leb_rank_congr.
  - rewrite (in_range_not_nan x Hx).
    apply in_range_not_nan, clamp_in_range, in_range_not_nan, Hx.
  - rewrite (in_range_not_nan y Hy).
    apply in_range_not_nan, clamp_in_range, in_range_not_nan, Hy.
  - now apply clamp_rank_in_range.
  - now apply clamp_rank_in_range.
Qed.

(** The chart's reading of a stored NaN is 0. *)
Lemma score_of_NaN (i l : string) : score (mkAxis i l nan) = 0.
Proof. reflexivity. Qed.

End Clamp.

(** ** The axis collection under its updates *)

Section Store.

Lemma DEFAULT_AXES_in_range (r1 r2 r3 r4 r5 : string) :
  all_in_range (DEFAULT_AXES r1 r2 r3 r4 r5) = true.
Proof. reflexivity. Qed.

Lemma addAxis_in_range (r : string) (prev : list Axis) :
  all_in_range prev = true -> all_in_range (addAxis r prev) = true.
Proof.
  unfold all_in_range, addAxis. intros H.
  rewrite forallb_app, H. reflexivity.
Qed.

Lemma removeAxis_in_range (i : string) (prev : list Axis) :
  all_in_range prev = true -> all_in_range (removeAxis i prev) = true.
Proof.
  unfold all_in_range, removeAxis. rewrite !forallb_forall.
  intros H a [Ha _]%filter_In. auto.
Qed.

Lemma updateLabel_in_range (i l : string) (prev : list Axis) :
  all_in_range prev = true -> all_in_range (updateLabel i l prev) = true.
Proof.
  unfold all_in_range, updateLabel. rewrite !forallb_forall.
  intros H a (b & <- & Hb)%in_map_iff.
  destruct (id b =? i); cbn; auto.
Qed.

Lemma updateValue_in_range (i : string) (v : number) (prev : list Axis) :
  is_nan v = false ->
  all_in_range prev = true -> all_in_range (updateValue i v prev) = true.
Proof.
  unfold all_in_range, updateValue. rewrite !forallb_forall.
  intros Hv H a (b & <- & Hb)%in_map_iff.
  destruct (id b =? i); cbn; auto using clamp_in_range.
Qed.

(** As long as no value update is given NaN, every stored value stays in
    the range. *)
Lemma run_in_range (ops : list Op) (start : list Axis) :
  forallb numeric_op ops = true ->
  all_in_range start = true -> all_in_range (run ops start) = true.
Proof.
  unfold run. revert start.
  induction ops as [ | o ops IH]; intros start Hops Hstart; [ exact Hstart | ].
  cbn in Hops. apply andb_true_iff in Hops as [Ho Hops].
  cbn. apply IH; [ exact Hops | ].
  destruct o as [r | i | i l | i v]; cbn.
  - now apply addAxis_in_range.
  - now apply removeAxis_in_range.
  - now apply updateLabel_in_range.
  - apply updateValue_in_range; [ | exact Hstart ].
    cbn in Ho. now apply negb_true_iff in Ho.
Qed.

(** A value update keeps the ids, the labels and the order, and stores the
    clamped input in the axes that have the id. *)
Lemma updateValue_fields (i : string) (v : number) (prev : list Axis) :
  map id (updateValue i v prev) = map id prev
  /\ map label (updateValue i v prev) = map label prev
  /\ map value (updateValue i v prev)
     = map (fun a => if id a =? i then clamp v 0 5 else value a) prev.
Proof.
  unfold updateValue. rewrite !map_map.
  repeat split; apply map_ext; intros a; destruct (id a =? i); reflexivity.
Qed.

(** An update or a removal for an id that no axis has changes nothing. *)
Lemma updateValue_absent (i : string) (v : number) (prev : list Axis) :
  forallb (fun a => negb (id a =? i)) prev = true ->
  updateValue i v prev = prev.
Proof.
  unfold updateValue. induction prev as [ | a prev IH]; cbn; [ reflexivity | ].
  intros [Ha Hp]%andb_true_iff. apply negb_true_iff in Ha.
  rewrite Ha, IH by exact Hp. reflexivity.
Qed.

Lemma removeAxis_absent (i : string) (prev : list Axis) :
  forallb (fun a => negb (id a =? i)) prev = true ->
  removeAxis i prev = prev.
Proof.
  unfold removeAxis. induction prev as [ | a prev IH]; cbn; [ reflexivity | ].
  intros [Ha Hp]%andb_true_iff. rewrite Ha, IH by exact Hp. reflexivity.
Qed.

Lemma all_in_range_no_NaN (l : list Axis) :
  all_in_range l = true -> no_NaN l = true.
Proof.
  unfold all_in_range, no_NaN. rewrite !forallb_forall. intros H a Ha.
  apply negb_true_iff, in_range_not_nan, H, Ha.
Qed.

End Store.

(** ** Strings and lists *)

Section Strings.

Lemma last_char_app (s t : string) :
  truthy t = true -> last_char (s ++ t) = last_char t.
Proof.
  intros Ht. induction s as [ | c s IH]; [ reflexivity | ].
  cbn [append last_char]. rewrite IH.
  destruct (s ++ t) eqn:E; [ | reflexivity ].
  destruct s; cbn in E; [ subst t | ]; discriminate.
Qed.

Lemma ends_with_LF_app (s t : string) :
  truthy t = true -> ends_with_LF (s ++ t) = ends_with_LF t.
Proof. intros Ht. unfold ends_with_LF. now rewrite last_char_app. Qed.

Lemma truthy_app (s t : string) : truthy (s ++ t) = truthy s || truthy t.
Proof. destruct s; reflexivity. Qed.

(** Joining strings none of which is empty gives the empty string only
    for the empty list. *)
Lemma truthy_join {A : Type} (f : A -> string) (sep : string) (l : list A) :
  (forall x, truthy (f x) = true) ->
  truthy (Array_join (map f l) sep) = nonempty l.
Proof.
  intros Hf. unfold Array_join.
  destruct l as [ | x [ | y l]]; cbn; [ reflexivity | apply Hf | ].
  rewrite truthy_app, Hf. reflexivity.
Qed.

Lemma nonempty_firstn_3 {A : Type} (l : list A) :
  nonempty (firstn 3 l) = nonempty l.
Proof. destruct l; reflexivity. Qed.

Lemma nonempty_filter {A : Type} (p : A -> bool) (l : list A) :
  nonempty (filter p l) = existsb p l.
Proof.
  induction l as [ | x l IH]; cbn; [ reflexivity | ].
  destruct (p x); [ reflexivity | exact IH ].
Qed.

Lemma fold_left_map {A B C : Type} (f : A -> B -> A) (g : C -> B)
    (l : list C) (a : A) :
  fold_left f (map g l) a = fold_left (fun acc x => f acc (g x)) l a.
Proof. revert a. induction l as [ | x l IH]; intros a; cbn; auto. Qed.

Lemma fold_left_pointwise {A B : Type} (f g : A -> B -> A) (l : list B) (a : A) :
  (forall acc x, f acc x = g acc x) -> fold_left f l a = fold_left g l a.
Proof.
  intros H. revert a. induction l as [ | x l IH]; intros a; cbn; [ reflexivity | ].
  now rewrite H, IH.
Qed.

Lemma filter_map {A B : Type} (p : B -> bool) (g : A -> B) (l : list A) :
  filter p (map g l) = map g (filter (fun x => p (g x)) l).
Proof.
  induction l as [ | x l IH]; cbn; [ reflexivity | ].
  destruct (p (g x)); cbn; now rewrite IH.
Qed.

Lemma find_split {A : Type} (P : A -> bool) (pre mid : list A) (h : A) :
  (forall x, In x pre -> P x = false) -> P h = true ->
  find P (pre ++ h :: mid) = Some h.
Proof.
  intros Hpre Hh. induction pre as [ | x pre IH]; cbn.
  - now rewrite Hh.
  - rewrite (Hpre x) by now left. apply IH. intros y Hy. apply Hpre. now right.
Qed.

Lemma find_ext_in {A : Type} (p q : A -> bool) (l : list A) :
  (forall x, In x l -> p x = q x) -> find p l = find q l.
Proof.
  induction l as [ | x l IH]; intros H; cbn; [ reflexivity | ].
  rewrite (H x) by now left. destruct (q x); [ reflexivity | ].
  apply IH. intros y Hy. apply H. now right.
Qed.

Lemma forallb_ext_in {A : Type} (p q : A -> bool) (l : list A) :
  (forall x, In x l -> p x = q x) -> forallb p l = forallb q l.
Proof.
  induction l as [ | x l IH]; intros H; cbn; [ reflexivity | ].
  rewrite (H x) by now left. f_equal. apply IH. intros y Hy. apply H. now right.
Qed.

End Strings.

(** ** The report *)

Section Report.

Lemma truthy_suggestion (a : Axis) : truthy (suggestion a) = true.
Proof. reflexivity. Qed.

(** The suggestions are the empty string exactly when no value is below 4. *)
Lemma truthy_suggestions (axes : list Axis) :
  truthy (suggestions axes) = existsb (fun a => (value a <? 4)%float) axes.
Proof.
  unfold suggestions, Array_slice. cbn [Nat.sub skipn].
  rewrite (truthy_join suggestion) by exact truthy_suggestion.
  now rewrite nonempty_firstn_3, nonempty_filter.
Qed.

(** The program's selection, made on raw values, is the specification's. *)
Lemma slice_filter_qualifying (axes : list Axis) :
  Array_slice (filter (fun a => (value a <? 4)%float) axes) 0 3
  = qualifying_spec axes.
Proof.
  unfold Array_slice, qualifying_spec. cbn [Nat.sub skipn]. f_equal.
  apply filter_ext. intros a. now rewrite clamp_lt_4.
Qed.

(** *** What clamping the collection first would change

    The average and the suggestions are the same on the clamped collection,
    and so is the phrase of every item ([phraseForValue_clamp]); the numbers
    shown and the choice of the two named axes are not. *)

Lemma avg_reclamped (l : list Axis) : avg (reclamped l) = avg l.
Proof.
  unfold avg, reclamped, Array_length. rewrite fold_left_map, length_map.
  rewrite (fold_left_pointwise _ (fun acc a => (acc + clamp (value a) 0 5)%float));
    [ reflexivity | ].
  intros acc a. cbn. now rewrite clamp_idempotent.
Qed.

Lemma suggestions_reclamped (l : list Axis) :
  suggestions (reclamped l) = suggestions l.
Proof.
  unfold suggestions, reclamped, Array_slice. cbn [Nat.sub skipn].
  rewrite filter_map, firstn_map, map_map. cbn [value].
  rewrite (filter_ext _ (fun a => (value a <? 4)%float)); [ reflexivity | ].
  intros a. apply clamp_lt_4.
Qed.

(** *** Independence of the ids *)

Lemma avg_anon (l : list Axis) : avg (map anon l) = avg l.
Proof.
  unfold avg, Array_length. now rewrite fold_left_map, length_map.
Qed.

Lemma highest_anon (a : Axis) (rest : list Axis) :
  highest (anon a) (map anon rest) = anon (highest a rest).
Proof.
  unfold highest, Array_reduce1. revert a.
  induction rest as [ | c rest IH]; intros a; cbn; [ reflexivity | ].
  destruct (value a <? value c)%float; apply IH.
Qed.

Lemma lowest_anon (a : Axis) (rest : list Axis) :
  lowest (anon a) (map anon rest) = anon (lowest a rest).
Proof.
  unfold lowest, Array_reduce1. revert a.
  induction rest as [ | c rest IH]; intros a; cbn; [ reflexivity | ].
  destruct (value c <? value a)%float; apply IH.
Qed.

Lemma bullets_anon (l : list Axis) : bullets (map anon l) = bullets l.
Proof. unfold bullets. now rewrite map_map. Qed.

Lemma suggestions_anon (l : list Axis) :
  suggestions (map anon l) = suggestions l.
Proof.
  unfold suggestions, Array_slice. cbn [Nat.sub skipn].
  now rewrite filter_map, firstn_map, map_map.
Qed.

Lemma generateComment_anon (l : list Axis) :
  generateComment (map anon l) = generateComment l.
Proof.
  destruct l as [ | a rest]; [ reflexivity | ].
  cbn [map generateComment]. rewrite <- (map_cons anon a rest).
  rewrite suggestions_anon. f_equal.
  unfold report_head. rewrite <- (map_cons anon a rest).
  now rewrite avg_anon, bullets_anon, highest_anon, lowest_anon.
Qed.

Lemma same_content_anon (l1 l2 : list Axis) :
  same_content l1 l2 -> map anon l1 = map anon l2.
Proof.
  unfold same_content. intros H.
  apply (f_equal (map (fun p => mkAxis "" (fst p) (snd p)))) in H.
  now rewrite !map_map in H.
Qed.

End Report.

(** ** The first axis attaining an extremum *)

Section FirstExtremum.

(** A strict comparison [lt] of values with its large version [le]: the
    order of the numbers for the strongest axis, its converse for the
    weakest. *)
Variables lt le : number -> number -> bool.

Hypothesis lt_le : forall x y, lt x y = true -> le x y = true.
Hypothesis le_lt_trans :
  forall x y z, le x y = true -> lt y z = true -> lt x z = true.
Hypothesis lt_false_le :
  forall x y, is_nan x = false -> is_nan y = false ->
              lt x y = false -> le y x = true.
Hypothesis lt_le_false : forall x y, lt x y = true -> le y x = false.
Hypothesis le_refl : forall x, is_nan x = false -> le x x = true.

(** The scan splits the array around its result: strictly smaller values
    before it, values that are not larger after it. *)
Lemma scan_split (rest pre mid : list Axis) (h : Axis) :
  no_NaN (pre ++ h :: mid ++ rest) = true ->
  (forall x, In x pre -> lt (value x) (value h) = true) ->
  (forall x, In x mid -> le (value x) (value h) = true) ->
  exists pre' mid',
    (pre ++ h :: mid ++ rest)%list
    = (pre' ++ fold_left (scan lt) rest h :: mid')%list
    /\ (forall x, In x pre' ->
                  lt (value x) (value (fold_left (scan lt) rest h)) = true)
    /\ (forall x, In x mid' ->
                  le (value x) (value (fold_left (scan lt) rest h)) = true).
Proof.
  revert pre mid h.
  induction rest as [ | c rest IH]; intros pre mid h Hn Hpre Hmid.
  - exists pre, mid. rewrite app_nil_r. auto.
  - assert (Nh : is_nan (value h) = false /\ is_nan (value c) = false).
    { unfold no_NaN in Hn. rewrite forallb_forall in Hn. split.
      - apply negb_true_iff, Hn, in_or_app. right. now left.
      - apply negb_true_iff, Hn, in_or_app. right. right.
        apply in_or_app. right. now left. }
    destruct Nh as [Nh Nc].
    cbn [fold_left].
    change (scan lt h c) with (if lt (value h) (value c) then c else h).
    destruct (lt (value h) (value c)) eqn:E.
    + destruct (IH (pre ++ h :: mid)%list [] c) as (pre' & mid' & Heq & H1 & H2).
      * cbn [app]. rewrite <- app_assoc. exact Hn.
      * intros x [Hx | [<- | Hx]]%in_app_or; [ | exact E | ].
        -- apply le_lt_trans with (value h); [ apply lt_le, Hpre, Hx | exact E ].
        -- apply le_lt_trans with (value h); [ apply Hmid, Hx | exact E ].
      * intros x [].
      * exists pre', mid'. split; [ | auto ].
        rewrite <- Heq. cbn [app]. now rewrite <- app_assoc.
    + destruct (IH pre (mid ++ [c])%list h) as (pre' & mid' & Heq & H1 & H2).
      * rewrite <- app_assoc. exact Hn.
      * exact Hpre.
      * intros x [Hx | [<- | []]]%in_app_or; [ apply Hmid, Hx | ].
        now apply lt_false_le.
      * exists pre', mid'. split; [ | auto ].
        rewrite <- Heq. now rewrite <- app_assoc.
Qed.

Lemma scan_first_extremum (a0 : Axis) (rest : list Axis) :
  no_NaN (a0 :: rest) = true ->
  find (fun a => forallb (fun b => le (value b) (value a)) (a0 :: rest)) (a0 :: rest)
  = Some (fold_left (scan lt) rest a0).
Proof.
  intros Hn.
  destruct (scan_split rest [] [] a0) as (pre & mid & Heq & H1 & H2);
    [ exact Hn | intros x [] | intros x [] | ].
  cbn [app] in Heq.
  set (P := fun a => forallb (fun b => le (value b) (value a)) (a0 :: rest)).
  rewrite Heq. apply find_split; unfold P.
  - intros x Hx. apply not_true_is_false. intros F.
    rewrite forallb_forall in F.
    specialize (F (fold_left (scan lt) rest a0)).
    rewrite (lt_le_false _ _ (H1 x Hx)) in F.
    enough (false = true) by discriminate. apply F.
    rewrite Heq. apply in_or_app. right. now left.
  - apply forallb_forall. intros b Hb. rewrite Heq in Hb.
    apply in_app_or in Hb as [Hb | [<- | Hb]]; [ apply lt_le, H1, Hb | | apply H2, Hb ].
    apply le_refl. unfold no_NaN in Hn. rewrite forallb_forall in Hn.
    apply negb_true_iff, Hn. rewrite Heq. apply in_or_app. right. now left.
Qed.

End FirstExtremum.

Section Extrema.

(** On a collection without NaN, the strongest axis is the first whose raw
    value is the largest, and the weakest the first whose raw value is the
    smallest. *)
Lemma highest_first_max (a0 : Axis) (rest : list Axis) :
  no_NaN (a0 :: rest) = true ->
  first_max_spec (a0 :: rest) = Some (highest a0 rest).
Proof.
  intros Hn. unfold first_max_spec, highest, Array_reduce1.
  exact (scan_first_extremum PrimFloat.ltb PrimFloat.leb
           ltb_leb leb_ltb_trans ltb_false_leb ltb_leb_false leb_refl
           a0 rest Hn).
Qed.

Lemma lowest_first_min (a0 : Axis) (rest : list Axis) :
  no_NaN (a0 :: rest) = true ->
  first_min_spec (a0 :: rest) = Some (lowest a0 rest).
Proof.
  intros Hn. unfold first_min_spec, lowest, Array_reduce1.
  exact (scan_first_extremum
           (fun x y => PrimFloat.ltb y x) (fun x y => PrimFloat.leb y x)
           (fun x y => ltb_leb y x)
           (fun x y z H1 H2 => ltb_leb_trans z y x H2 H1)
           (fun x y Hx Hy H => ltb_false_leb y x Hy Hx H)
           (fun x y => ltb_leb_false y x)
           leb_refl
           a0 rest Hn).
Qed.

(** On a collection whose values are all in the range, choosing by clamped
    values and choosing by raw values are the same, so that the program's
    choice is the specification's. *)
Lemma highest_lowest_in_range (a0 : Axis) (rest : list Axis) :
  all_in_range (a0 :: rest) = true ->
  first_max_clamped_spec (a0 :: rest) = Some (highest a0 rest)
  /\ first_min_clamped_spec (a0 :: rest) = Some (lowest a0 rest).
Proof.
  intros Hr. assert (Hn := all_in_range_no_NaN _ Hr).
  unfold all_in_range in Hr. rewrite forallb_forall in Hr.
  rewrite <- (highest_first_max a0 rest Hn), <- (lowest_first_min a0 rest Hn).
  unfold first_max_clamped_spec, first_max_spec,
    first_min_clamped_spec, first_min_spec.
  split; apply find_ext_in; intros a Ha; apply forallb_ext_in; intros b Hb;
    apply clamp_leb_in_range; auto.
Qed.

End Extrema.

(** ** The properties *)

(** C1: on the single axis "Speed" with value 7 the report differs from the
    report on the clamped collection: only the average is computed from the
    clamped value; the summary and the item line show the raw 7 where the
    clamped collection gives 5. *)
Theorem generateComment_shows_raw_values :
  generateComment [mkAxis "" "Speed" 7]
  = "【サマリー】" ++ LF
      ++ "平均スコアは5.0。特に「Speed」が強み（7）。 一方で「Speed」は相対的な弱点（7）。"
      ++ LF ++ LF
      ++ "【各項目】" ++ LF ++ "・Speed: 7（非常に優秀）" ++ LF ++ LF
      ++ "【次の一歩】" ++ LF ++ "現状維持でOK。強みをさらに伸ばしましょう。"
  /\ generateComment (reclamped [mkAxis "" "Speed" 7])
     = "【サマリー】" ++ LF
         ++ "平均スコアは5.0。特に「Speed」が強み（5）。 一方で「Speed」は相対的な弱点（5）。"
         ++ LF ++ LF
         ++ "【各項目】" ++ LF ++ "・Speed: 5（非常に優秀）" ++ LF ++ LF
         ++ "【次の一歩】" ++ LF ++ "現状維持でOK。強みをさらに伸ばしましょう。".
Proof. split; vm_compute; reflexivity. Qed.

(** C2: [updateValue] stores 0 for -3 and 5 for 99, but for NaN it stores
    NaN: the input is clamped without being replaced by 0 first. *)
Theorem updateValue_stores_NaN :
  let prev := [mkAxis "a" "Speed" 3] in
  map value (updateValue "a" (-3) prev) = [0%float]
  /\ map value (updateValue "a" 99 prev) = [5%float]
  /\ map value (updateValue "a" nan prev) = [nan].
Proof. repeat split. Qed.

(** C3: from the default collection, one value update with NaN leaves a
    stored value that is outside the range from 0 to 5. *)
Theorem run_updateValue_NaN_out_of_range :
  let start := DEFAULT_AXES "0.a" "0.b" "0.c" "0.d" "0.e" in
  let final := run [UpdateValue "a" nan] start in
  all_in_range start = true
  /\ map value final = [nan; 4; 3; 4; 3]%float
  /\ all_in_range final = false.
Proof. repeat split. Qed.

(** C4: the strongest and the weakest axis are chosen by comparing raw
    values.  With values 5 and 7 the report names the second axis as the
    strongest, and with values 0 and -3 the second as the weakest, although
    in both collections the two clamped values are equal and the first axis
    is the first to attain them. *)
Theorem highest_lowest_by_raw_value :
  let a := mkAxis "" "A" 5 in
  let b := mkAxis "" "B" 7 in
  let c := mkAxis "" "C" 0 in
  let d := mkAxis "" "D" (-3) in
  label (highest a [b]) = "B"
  /\ option_map label (first_max_clamped_spec [a; b]) = Some "A"
  /\ label (lowest c [d]) = "D"
  /\ option_map label (first_min_clamped_spec [c; d]) = Some "C"
  /\ generateComment [a; b]
     = "【サマリー】" ++ LF
         ++ "平均スコアは5.0。特に「B」が強み（7）。 一方で「A」は相対的な弱点（5）。"
         ++ LF ++ LF
         ++ "【各項目】" ++ LF
         ++ "・A: 5（非常に優秀）" ++ LF ++ "・B: 7（非常に優秀）" ++ LF ++ LF
         ++ "【次の一歩】" ++ LF ++ "現状維持でOK。強みをさらに伸ばしましょう。".
Proof. repeat split. Qed.

(** C5: the report on a non-empty collection ends with the suggestions
    section of the specification: the heading, then either one line for each
    of the first three axes whose clamped value is below 4, in the order of
    the collection, each line being the fixed text
    "- 「...」向上のために、週1回の練習や確認を取り入れる。" written around the
    label of its axis, or, when there is no such axis, the fixed message
    alone. *)
Theorem generateComment_next_steps (a : Axis) (rest : list Axis) :
  generateComment (a :: rest)
  = report_head a rest ++ next_steps_spec (a :: rest).
Proof.
  cbn [generateComment]. f_equal.
  unfold next_steps_spec. rewrite <- slice_filter_qualifying.
  unfold suggestions.
  destruct (Array_slice (filter (fun x => (value x <? 4)%float) (a :: rest)) 0 3)
    as [ | x sel]; [ reflexivity | ].
  rewrite (truthy_join suggestion) by exact truthy_suggestion.
  unfold suggestion_line_spec.
  rewrite (map_ext suggestion
             (fun b => "- 「" ++ label b ++ "」向上のために、週1回の練習や確認を取り入れる。"))
    by reflexivity.
  reflexivity.
Qed.

(** C6: on the empty collection [generateComment] returns the empty string,
    and so does the handler that stores the report: the comment becomes empty
    and nothing else of the state changes. *)
Theorem generateComment_empty :
  generateComment [] = ""
  /\ forall t ticks c,
       handleGenerate (mkApp t [] ticks c) = mkApp t [] ticks "".
Proof. split; reflexivity. Qed.

(** C7: the report is a function of the labels and values in their order:
    two collections that differ only in ids give the same string; and
    generating a report leaves the collection as it was, so that generating
    again gives the same report. *)
Theorem generateComment_deterministic_id_free :
  (forall l1 l2 : list Axis,
      same_content l1 l2 -> generateComment l1 = generateComment l2)
  /\ (forall st : AppState,
         axes (handleGenerate st) = axes st
         /\ comment (handleGenerate (handleGenerate st))
            = comment (handleGenerate st)).
Proof.
  split.
  - intros l1 l2 H%same_content_anon.
    rewrite <- (generateComment_anon l1), <- (generateComment_anon l2).
    now rewrite H.
  - intros st. split; reflexivity.
Qed.

Lemma generateComment_deterministic_id_free_witness :
  same_content [mkAxis "k3x9q2a" "Speed" 3; mkAxis "z81mm0c" "Focus" 4.5]
               [mkAxis "i" "Speed" 3; mkAxis "i" "Focus" 4.5]
  /\ generateComment [mkAxis "k3x9q2a" "Speed" 3; mkAxis "z81mm0c" "Focus" 4.5]
     = generateComment [mkAxis "i" "Speed" 3; mkAxis "i" "Focus" 4.5].
Proof.
  split; [ reflexivity | ].
  apply (proj1 generateComment_deterministic_id_free). reflexivity.
Defined.

(** C8, as stated, fails when the drawn id is already in use: with the draw
    0.5 made twice, removing the new axis's id "i" also removes the default
    axis that has it. *)
Lemma add_remove_collision :
  let prev := DEFAULT_AXES "0.i" "0.b" "0.c" "0.d" "0.e" in
  uid "0.i" = "i"
  /\ map id (removeAxis (uid "0.i") (addAxis "0.i" prev)) = ["b"; "c"; "d"; "e"]
  /\ removeAxis (uid "0.i") (addAxis "0.i" prev) <> prev.
Proof. repeat split. discriminate. Qed.

(** C8, amended: [addAxis] appends one axis, with the drawn id, the default
    label and value 3, after the unchanged earlier axes; and when no earlier
    axis has the drawn id, removing that id gives back the earlier
    collection. *)
Theorem add_then_remove (r : string) (prev : list Axis) :
  addAxis r prev = (prev ++ [mkAxis (uid r) "新規項目" 3])%list
  /\ List.length (addAxis r prev) = S (List.length prev)
  /\ firstn (List.length prev) (addAxis r prev) = prev
  /\ (forallb (fun a => negb (id a =? uid r)) prev = true ->
      removeAxis (uid r) (addAxis r prev) = prev).
Proof.
  unfold addAxis. repeat split.
  - rewrite length_app. cbn. lia.
  - rewrite firstn_app, Nat.sub_diag, firstn_all. cbn. apply app_nil_r.
  - intros Hfresh. unfold removeAxis. rewrite filter_app. cbn.
    rewrite String.eqb_refl. cbn. rewrite app_nil_r.
    now apply removeAxis_absent.
Qed.

Lemma add_then_remove_witness :
  let prev := DEFAULT_AXES "0.a" "0.b" "0.c" "0.d" "0.e" in
  forallb (fun a => negb (id a =? uid "0.i")) prev = true
  /\ removeAxis (uid "0.i") (addAxis "0.i" prev) = prev.
Proof.
  split; [ reflexivity | ].
  apply (proj2 (proj2 (proj2 (add_then_remove "0.i" _)))). reflexivity.
Defined.

(** C9: for every number other than NaN, the clamped value lies between 0
    and 5, both included, and clamping it again changes nothing. *)
Theorem clamp_range_idempotent (v : number) :
  is_nan v = false ->
  ((0 <=? clamp v 0 5)%float = true /\ (clamp v 0 5 <=? 5)%float = true)
  /\ clamp (clamp v 0 5) 0 5 = clamp v 0 5.
Proof.
  intros Hv. split; [ | apply clamp_idempotent ].
  apply andb_true_iff. exact (clamp_in_range v Hv).
Qed.

Lemma clamp_range_idempotent_witness :
  is_nan 7 = false
  /\ ((0 <=? clamp 7 0 5)%float = true /\ (clamp 7 0 5 <=? 5)%float = true)
  /\ clamp (clamp 7 0 5) 0 5 = clamp 7 0 5.
Proof.
  split; [ reflexivity | ].
  apply (clamp_range_idempotent 7). reflexivity.
Defined.

(** C10: the report on a non-empty collection ends with a line feed exactly
    when some axis has a value below 4. *)
Theorem generateComment_final_newline (a : Axis) (rest : list Axis) :
  ends_with_LF (generateComment (a :: rest))
  = existsb (fun x => (value x <? 4)%float) (a :: rest).
Proof.
  cbn [generateComment]. rewrite <- truthy_suggestions.
  destruct (truthy (suggestions (a :: rest))).
  - rewrite !ends_with_LF_app
      by (rewrite ?truthy_app; cbn; rewrite ?orb_true_r; reflexivity).
    reflexivity.
  - rewrite ends_with_LF_app by reflexivity. reflexivity.
Qed.

(** ** Further facts about numbers *)

Section MoreNumbers.

Local Open Scope float_scope.

Lemma SFeqb_rank (x y : spec_float) :
  x <> S754_nan -> y <> S754_nan ->
  (SFeqb x y = true <-> rank x = rank y).
Proof.
  intros Hx Hy. assert (H := SFcompare_rank x y Hx Hy). unfold SFeqb.
  destruct (SFcompare x y) as [[ | | ] | ]; split; intros H1;
    try discriminate; try reflexivity; try assumption; try contradiction.
  - rewrite H1 in H. now apply lex_lt_irrefl in H.
  - rewrite H1 in H. now apply lex_lt_irrefl in H.
Qed.

Lemma eqb_true_iff (x y : number) :
  (x =? y) = true
  <-> is_nan x = false /\ is_nan y = false /\ rank_of x = rank_of y.
Proof.
  rewrite eqb_spec.
  destruct (is_nan x) eqn:Hx.
  { apply is_nan_true in Hx. subst x.
    split; [ discriminate | intros [H _]; discriminate ]. }
  destruct (is_nan y) eqn:Hy.
  { apply is_nan_true in Hy. subst y. change (Prim2SF nan) with S754_nan.
    unfold SFeqb. rewrite SFcompare_nan_r.
    split; [ discriminate | intros (_ & H & _); discriminate ]. }
  rewrite (SFeqb_rank _ _ (is_nan_false _ Hx) (is_nan_false _ Hy)).
  unfold rank_of. tauto.
Qed.

Lemma ltb_rank_congr (x x' y y' : number) :
  is_nan x = is_nan x' -> is_nan y = is_nan y' ->
  rank_of x = rank_of x' -> rank_of y = rank_of y' ->
  (x <? y) = (x' <? y').
Proof.
  intros Hx Hy Rx Ry. apply eq_true_iff_eq.
  rewrite !ltb_true_iff, Hx, Hy, Rx, Ry. reflexivity.
Qed.

(** Among numbers other than NaN, [x <= y] is the negation of [y < x]. *)
Lemma leb_negb_ltb (x y : number) :
  is_nan x = false -> is_nan y = false -> (x <=? y) = negb (y <? x).
Proof.
  intros Hx Hy. destruct (y <? x) eqn:E; cbn.
  - now apply ltb_leb_false.
  - now apply ltb_false_leb.
Qed.

(** Two numbers of the same rank are the same number or two zeros. *)
Lemma rank_eq (x y : spec_float) :
  x <> S754_nan -> y <> S754_nan -> rank x = rank y ->
  x = y \/ (exists s s', x = S754_zero s /\ y = S754_zero s').
Proof.
  intros Hx Hy.
  destruct x as [sx | sx | | sx mx ex]; try congruence;
    destruct y as [sy | sy | | sy my ey]; try congruence;
    try destruct sx; try destruct sy; cbn; intros H;
    try discriminate; eauto; left; injection H as ? ?; f_equal; lia.
Qed.

Lemma rank_of_zero (v : number) :
  is_nan v = false -> rank_of v = (0, 0, 0)%Z ->
  exists s, Prim2SF v = S754_zero s.
Proof.
  intros Hv%is_nan_false. unfold rank_of.
  destruct (Prim2SF v) as [s | s | | s m e]; try congruence; eauto;
    destruct s; discriminate.
Qed.

Lemma rank_of_5 (v : number) :
  is_nan v = false -> rank_of v = rank_of 5 -> v = 5.
Proof.
  intros Hv%is_nan_false H. apply Prim2SF_inj.
  destruct (rank_eq (Prim2SF v) (Prim2SF 5) Hv) as [E | (s & s' & _ & E)];
    [ discriminate | exact H | exact E | discriminate E ].
Qed.

(** NaN is absorbing for the sum and the quotient. *)
Lemma add_nan_l (x : number) : nan + x = nan.
Proof.
  apply Prim2SF_inj. rewrite add_spec. change (Prim2SF nan) with S754_nan.
  reflexivity.
Qed.

Lemma add_nan_r (x : number) : x + nan = nan.
Proof.
  apply Prim2SF_inj. rewrite add_spec. change (Prim2SF nan) with S754_nan.
  destruct (Prim2SF x) as [s | s | | s m e]; reflexivity.
Qed.

Lemma div_nan_l (x : number) : nan / x = nan.
Proof.
  apply Prim2SF_inj. rewrite div_spec. change (Prim2SF nan) with S754_nan.
  reflexivity.
Qed.

End MoreNumbers.

(** ** Further facts about [clamp] *)

Section MoreClamp.

Local Open Scope float_scope.

Lemma or_zero_not_nan (v : number) : is_nan (or_zero v) = false.
Proof.
  unfold or_zero. destruct (is_nan v) eqn:Hv; [ reflexivity | ].
  cbn [orb]. destruct (v =? 0); [ reflexivity | exact Hv ].
Qed.

(** On a number other than NaN the replacement of a falsy number by 0 makes
    no difference to the clamped value. *)
Lemma clamp_or_zero (v : number) :
  is_nan v = false -> clamp (or_zero v) 0 5 = clamp v 0 5.
Proof.
  intros Hv. unfold or_zero. rewrite Hv. cbn [orb].
  destruct (v =? 0) eqn:E; [ | reflexivity ].
  apply eqb_true_iff in E as (_ & _ & R).
  rewrite (clamp_cases v Hv).
  rewrite (ltb_rank_congr v 0 5 5 Hv eq_refl R eq_refl).
  rewrite (ltb_rank_congr 0 0 v 0 eq_refl Hv eq_refl R).
  reflexivity.
Qed.

Lemma clamp_ltb_in_range (x y : number) :
  in_range x = true -> in_range y = true ->
  (clamp x 0 5 <? clamp y 0 5) = (x <? y).
Proof.
  intros Hx Hy. apply ltb_rank_congr.
  - rewrite (in_range_not_nan x Hx).
    apply in_range_not_nan, clamp_in_range, in_range_not_nan, Hx.
  - rewrite (in_range_not_nan y Hy).
    apply in_range_not_nan, clamp_in_range, in_range_not_nan, Hy.
  - now apply clamp_rank_in_range.
  - now apply clamp_rank_in_range.
Qed.

(** Inside the range a number and its clamped value are written the same. *)
Lemma Number_toString_clamp_in_range (v : number) :
  in_range v = true ->
  Number_toString (clamp v 0 5) = Number_toString v.
Proof.
  intros Hr. assert (Hv := in_range_not_nan v Hr).
  assert (R := clamp_rank_in_range v Hr).
  rewrite (clamp_cases v Hv) in *.
  destruct (v <? 5) eqn:E5.
  - destruct (0 <? v) eqn:E0; [ reflexivity | ].
    symmetry in R. destruct (rank_of_zero v Hv R) as [s Hs].
    unfold Number_toString. now rewrite Hs.
  - symmetry in R. now rewrite (rank_of_5 v Hv R).
Qed.

End MoreClamp.

(** ** Further facts about lists, sums and scans *)

Section MoreLists.

Lemma fold_left_ext_in {A B : Type} (f g : A -> B -> A) (l : list B) (a : A) :
  (forall acc x, In x l -> f acc x = g acc x) ->
  fold_left f l a = fold_left g l a.
Proof.
  revert a. induction l as [ | x l IH]; intros a H; cbn; [ reflexivity | ].
  rewrite (H a x) by now left. apply IH. intros acc y Hy. apply H. now right.
Qed.

Lemma append_assoc (s t u : string) : s ++ (t ++ u) = (s ++ t) ++ u.
Proof. induction s as [ | c s IH]; cbn; [ reflexivity | now rewrite IH ]. Qed.

Lemma length_substring (n m : nat) (s : string) :
  String.length (substring n m s) = Nat.min m (String.length s - n).
Proof.
  revert n m. induction s as [ | c s IH]; intros n m.
  - destruct n, m; reflexivity.
  - destruct n as [ | n].
    + destruct m as [ | m]; [ reflexivity | ].
      cbn. now rewrite IH, Nat.sub_0_r.
    + cbn. apply IH.
Qed.

Lemma length_filter_split {A : Type} (p : A -> bool) (l : list A) :
  List.length (filter (fun x => negb (p x)) l) + List.length (filter p l)
  = List.length l.
Proof.
  induction l as [ | x l IH]; cbn; [ reflexivity | ].
  destruct (p x); cbn; lia.
Qed.

(** Once the sum is NaN it stays NaN, and a NaN value makes it NaN. *)
Lemma sum_from_nan (l : list Axis) :
  fold_left (fun acc a => acc + clamp (value a) 0 5)%float l nan = nan.
Proof.
  induction l as [ | a l IH]; cbn; [ reflexivity | ].
  now rewrite add_nan_l.
Qed.

Lemma sum_with_nan (l : list Axis) (acc : number) :
  existsb (fun a => is_nan (value a)) l = true ->
  fold_left (fun acc a => acc + clamp (value a) 0 5)%float l acc = nan.
Proof.
  revert acc. induction l as [ | a l IH]; intros acc; cbn; [ discriminate | ].
  destruct (is_nan (value a)) eqn:E; cbn.
  - intros _. apply is_nan_true in E. rewrite E, clamp_nan, add_nan_r.
    apply sum_from_nan.
  - apply IH.
Qed.

(** A scan returns one of the axes it went through. *)
Lemma scan_In (lt : number -> number -> bool) (rest : list Axis) (a0 : Axis) :
  In (fold_left (scan lt) rest a0) (a0 :: rest).
Proof.
  revert a0. induction rest as [ | c rest IH]; intros a0; cbn [fold_left].
  - now left.
  - unfold scan at 2. destruct (lt (value a0) (value c)).
    + right. apply IH.
    + destruct (IH a0) as [H | H]; [ now left | right; now right ].
Qed.

(** A scan keeps its first axis when no later axis compares above it. *)
Lemma scan_first_stays (lt : number -> number -> bool) (rest : list Axis)
    (a0 : Axis) :
  forallb (fun c => negb (lt (value a0) (value c))) rest = true ->
  fold_left (scan lt) rest a0 = a0.
Proof.
  induction rest as [ | c rest IH]; cbn; [ reflexivity | ].
  intros [Hc Hr]%andb_true_iff. apply negb_true_iff in Hc.
  unfold scan at 2. rewrite Hc. now apply IH.
Qed.

Lemma highest_In (a0 : Axis) (rest : list Axis) :
  In (highest a0 rest) (a0 :: rest).
Proof. exact (scan_In PrimFloat.ltb rest a0). Qed.

Lemma lowest_In (a0 : Axis) (rest : list Axis) :
  In (lowest a0 rest) (a0 :: rest).
Proof. exact (scan_In (fun x y => PrimFloat.ltb y x) rest a0). Qed.

(** On values in the range, the two scans commute with clamping. *)
Lemma highest_reclamped (a0 : Axis) (rest : list Axis) :
  all_in_range (a0 :: rest) = true ->
  highest (mkAxis (id a0) (label a0) (clamp (value a0) 0 5)) (reclamped rest)
  = mkAxis (id (highest a0 rest)) (label (highest a0 rest))
      (clamp (value (highest a0 rest)) 0 5).
Proof.
  unfold highest, Array_reduce1, reclamped. revert a0.
  induction rest as [ | c rest IH]; intros a0 H; [ reflexivity | ].
  cbn in H. apply andb_true_iff in H as [Ha [Hc Hr]%andb_true_iff].
  cbn [map fold_left value].
  rewrite (clamp_ltb_in_range _ _ Ha Hc).
  destruct (value a0 <? value c)%float; apply IH; cbn;
    [ now rewrite Hc | now rewrite Ha ].
Qed.

Lemma lowest_reclamped (a0 : Axis) (rest : list Axis) :
  all_in_range (a0 :: rest) = true ->
  lowest (mkAxis (id a0) (label a0) (clamp (value a0) 0 5)) (reclamped rest)
  = mkAxis (id (lowest a0 rest)) (label (lowest a0 rest))
      (clamp (value (lowest a0 rest)) 0 5).
Proof.
  unfold lowest, Array_reduce1, reclamped. revert a0.
  induction rest as [ | c rest IH]; intros a0 H; [ reflexivity | ].
  cbn in H. apply andb_true_iff in H as [Ha [Hc Hr]%andb_true_iff].
  cbn [map fold_left value].
  rewrite (clamp_ltb_in_range _ _ Hc Ha).
  destruct (value c <? value a0)%float; apply IH; cbn;
    [ now rewrite Hc | now rewrite Ha ].
Qed.

Lemma bullets_reclamped (l : list Axis) :
  all_in_range l = true -> bullets (reclamped l) = bullets l.
Proof.
  unfold bullets, reclamped, all_in_range. rewrite map_map, forallb_forall.
  intros H. f_equal. apply map_ext_in. intros a Ha. unfold bullet. cbn.
  now rewrite phraseForValue_clamp, (Number_toString_clamp_in_range _ (H a Ha)).
Qed.

End MoreLists.

(** ** Further properties *)

(** X1: [clamp] with its default bounds, on every number: NaN gives NaN; a
    number not below 5 (also [Infinity]) gives 5; a number not above 0 (also
    [-0] and [-Infinity]) gives [+0]; any other number is returned as it
    is. *)
Theorem clamp_piecewise (v : number) :
  clamp v 0 5
  = if is_nan v then nan
    else if (v <? 5)%float then (if (0 <? v)%float then v else 0%float)
    else 5%float.
Proof.
  destruct (is_nan v) eqn:Hv.
  - apply is_nan_true in Hv. now subst v.
  - now apply clamp_cases.
Qed.

(** X2: [clamp] keeps the order: when [x <= y], the clamped value of [x] is
    at most the clamped value of [y]. *)
Theorem clamp_monotone (x y : number) :
  (x <=? y)%float = true ->
  (clamp x 0 5 <=? clamp y 0 5)%float = true.
Proof.
  intros H. assert (N := H). apply leb_true_iff in N as (Nx & Ny & _).
  rewrite (clamp_cases x Nx), (clamp_cases y Ny).
  destruct (x <? 5)%float eqn:X5.
  - destruct (0 <? x)%float eqn:X0.
    + rewrite (ltb_leb_trans 0 x y X0 H).
      destruct (y <? 5)%float; [ exact H | now apply ltb_leb ].
    + destruct (y <? 5)%float; [ | reflexivity ].
      destruct (0 <? y)%float eqn:Y0; [ now apply ltb_leb | reflexivity ].
  - destruct (y <? 5)%float eqn:Y5; [ | reflexivity ].
    rewrite (leb_ltb_trans x y 5 H Y5) in X5. discriminate.
Qed.

Lemma clamp_monotone_witness :
  (2.5 <=? 7)%float = true
  /\ (clamp 2.5 0 5 <=? clamp 7 0 5)%float = true.
Proof.
  split; [ reflexivity | ].
  apply (clamp_monotone 2.5 7). reflexivity.
Defined.

(** X3: for a number other than NaN the five phrases are those of the
    intervals below 2, from 2 to 3, from 3 to 4, from 4 to 5 and from 5 on,
    each with its lower bound included. *)
Theorem phraseForValue_intervals (v : number) :
  is_nan v = false ->
  phraseForValue v
  = if (v <? 2)%float then "要強化"
    else if (v <? 3)%float then "改善の余地"
    else if (v <? 4)%float then "平均的"
    else if (v <? 5)%float then "良好"
    else "非常に優秀".
Proof.
  intros Hv. unfold phraseForValue.
  rewrite !(fun t Ht => leb_negb_ltb t v Ht Hv) by reflexivity.
  destruct (v <? 2)%float eqn:E2.
  { rewrite (ltb_leb_trans v 2 3 E2 eq_refl), (ltb_leb_trans v 2 4 E2 eq_refl),
      (ltb_leb_trans v 2 5 E2 eq_refl). reflexivity. }
  destruct (v <? 3)%float eqn:E3.
  { rewrite (ltb_leb_trans v 3 4 E3 eq_refl), (ltb_leb_trans v 3 5 E3 eq_refl).
    reflexivity. }
  destruct (v <? 4)%float eqn:E4.
  { rewrite (ltb_leb_trans v 4 5 E4 eq_refl). reflexivity. }
  destruct (v <? 5)%float; reflexivity.
Qed.

Lemma phraseForValue_intervals_witness :
  is_nan 4 = false /\ phraseForValue 4 = "良好".
Proof.
  split; [ reflexivity | ].
  rewrite (phraseForValue_intervals 4); reflexivity.
Defined.

(** X4: the phrase of every axis is the same on the collection and on the
    collection with its values clamped, whatever the values are. *)
Theorem phrases_unchanged_by_clamping (l : list Axis) :
  map (fun a => phraseForValue (value a)) (reclamped l)
  = map (fun a => phraseForValue (value a)) l.
Proof.
  unfold reclamped. rewrite map_map. apply map_ext. intros a. cbn.
  apply phraseForValue_clamp.
Qed.

(** X5: an id is what follows the first two characters of the text of the
    draw, cut after seven: its character at each position below 7 is the
    character two positions further in the text, it has no character from
    position 7 on, and its length is the smaller of 7 and the length of the
    text less 2. *)
Theorem uid_characters (rnd36 : string) :
  (forall k : nat,
      String.get k (uid rnd36)
      = if (k <? 7)%nat then String.get (k + 2) rnd36 else None)
  /\ String.length (uid rnd36) = Nat.min 7 (String.length rnd36 - 2).
Proof.
  unfold uid, String_slice. cbn [Nat.sub]. split.
  - intros k. destruct (k <? 7)%nat eqn:E.
    + apply Nat.ltb_lt in E. now apply substring_correct1.
    + apply Nat.ltb_ge in E. now apply substring_correct2.
  - apply length_substring.
Qed.

(** X6: after [removeAxis] no axis has the id; removing the same id again
    changes nothing; and the collection is shorter by the number of axes
    that had the id. *)
Theorem removeAxis_effect (i : string) (prev : list Axis) :
  forallb (fun a => negb (id a =? i)) (removeAxis i prev) = true
  /\ removeAxis i (removeAxis i prev) = removeAxis i prev
  /\ List.length (removeAxis i prev)
     + List.length (filter (fun a => id a =? i) prev)
     = List.length prev.
Proof.
  assert (G : forallb (fun a => negb (id a =? i)) (removeAxis i prev) = true).
  { apply forallb_forall. intros a [_ Ha]%filter_In. exact Ha. }
  repeat split.
  - exact G.
  - now apply removeAxis_absent.
  - apply (length_filter_split (fun a => id a =? i)).
Qed.

(** X7: removals commute. *)
Theorem removeAxis_commute (i j : string) (prev : list Axis) :
  removeAxis i (removeAxis j prev) = removeAxis j (removeAxis i prev).
Proof.
  unfold removeAxis. induction prev as [ | a prev IH]; cbn; [ reflexivity | ].
  destruct (id a =? j) eqn:Ej; destruct (id a =? i) eqn:Ei; cbn;
    rewrite ?Ej, ?Ei; cbn; now rewrite IH.
Qed.

(** X8: a label update changes no id and no value, so the values stay in
    the range if they were, and the average of the report is the same. *)
Theorem updateLabel_keeps_values (i l : string) (prev : list Axis) :
  map id (updateLabel i l prev) = map id prev
  /\ map value (updateLabel i l prev) = map value prev
  /\ all_in_range (updateLabel i l prev) = all_in_range prev
  /\ avg (updateLabel i l prev) = avg prev.
Proof.
  unfold updateLabel. repeat split.
  - rewrite map_map. apply map_ext. intros a. now destruct (id a =? i).
  - rewrite map_map. apply map_ext. intros a. now destruct (id a =? i).
  - unfold all_in_range. induction prev as [ | a prev IH]; cbn; [ reflexivity | ].
    rewrite IH. now destruct (id a =? i).
  - unfold avg, Array_length. rewrite fold_left_map, length_map.
    rewrite (fold_left_pointwise _ (fun acc a => (acc + clamp (value a) 0 5)%float));
      [ reflexivity | ].
    intros acc a. now destruct (id a =? i).
Qed.

(** X9: the last update wins: two value updates, or two label updates, of
    the same id leave what the second alone would. *)
Theorem update_last_wins (i : string) (v1 v2 : number) (l1 l2 : string)
    (prev : list Axis) :
  updateValue i v2 (updateValue i v1 prev) = updateValue i v2 prev
  /\ updateLabel i l2 (updateLabel i l1 prev) = updateLabel i l2 prev.
Proof.
  unfold updateValue, updateLabel. rewrite !map_map.
  split; apply map_ext; intros a;
    destruct (id a =? i) eqn:E; cbn; now rewrite E.
Qed.

(** X10: a label update and a value update commute, for the same id and
    for different ids. *)
Theorem updateLabel_updateValue_commute (i j l : string) (v : number)
    (prev : list Axis) :
  updateLabel i l (updateValue j v prev) = updateValue j v (updateLabel i l prev).
Proof.
  unfold updateValue, updateLabel. rewrite !map_map.
  apply map_ext. intros a.
  destruct (id a =? j) eqn:Ej; destruct (id a =? i) eqn:Ei; cbn;
    now rewrite ?Ej, ?Ei.
Qed.

(** X11: from the default collection, whatever ids were drawn, every
    sequence of additions, removals, label updates and value updates whose
    value inputs are numbers other than NaN leaves all stored values
    between 0 and 5. *)
Theorem store_values_in_range (r1 r2 r3 r4 r5 : string) (ops : list Op) :
  forallb numeric_op ops = true ->
  all_in_range (run ops (DEFAULT_AXES r1 r2 r3 r4 r5)) = true.
Proof.
  intros H. apply run_in_range; [ exact H | apply DEFAULT_AXES_in_range ].
Qed.

Lemma store_values_in_range_witness :
  let ops := [UpdateValue "a" 99; Add "0.i"; UpdateValue "i" (-3);
              UpdateLabel "b" "Focus"; Remove "c"; UpdateValue "d" infinity] in
  forallb numeric_op ops = true
  /\ all_in_range (run ops (DEFAULT_AXES "0.a" "0.b" "0.c" "0.d" "0.e")) = true.
Proof.
  split; [ reflexivity | ].
  apply (store_values_in_range "0.a" "0.b" "0.c" "0.d" "0.e"). reflexivity.
Defined.

(** X12: the chart gets one element per axis, in order; every score lies
    between 0 and 5, also when the stored value is NaN or out of the range;
    and no subject is empty. *)
Theorem data_well_formed (axes : list Axis) :
  List.length (data axes) = List.length axes
  /\ forallb (fun d => in_range (Chart.score d)) (data axes) = true
  /\ forallb (fun d => truthy (Chart.subject d)) (data axes) = true
  /\ map Chart.subject (data axes)
     = map (fun a => if truthy (label a) then label a else "無題") axes.
Proof.
  unfold data. repeat split.
  - apply length_map.
  - rewrite forallb_forall. intros d (a & <- & _)%in_map_iff. cbn.
    apply clamp_in_range, or_zero_not_nan.
  - rewrite forallb_forall. intros d (a & <- & _)%in_map_iff. cbn.
    destruct (truthy (label a)) eqn:E; [ exact E | reflexivity ].
  - now rewrite map_map.
Qed.

(** X13: when no stored value is NaN, the footer of a non-empty collection
    shows the average that the report shows. *)
Theorem footer_shows_report_average (a0 : Axis) (rest : list Axis) :
  no_NaN (a0 :: rest) = true ->
  footer (a0 :: rest) = "平均: " ++ avg (a0 :: rest)
  /\ exists tail,
       generateComment (a0 :: rest)
       = "【サマリー】" ++ LF ++ "平均スコアは"
           ++ toFixed (App_avg (a0 :: rest)) 1 ++ tail.
Proof.
  intros H.
  assert (E : toFixed (App_avg (a0 :: rest)) 1 = avg (a0 :: rest)).
  { unfold App_avg, avg.
    rewrite (fold_left_ext_in _ (fun acc a => (acc + clamp (value a) 0 5)%float));
      [ reflexivity | ].
    intros acc a Ha. unfold score.
    unfold no_NaN in H. rewrite forallb_forall in H.
    rewrite clamp_or_zero; [ reflexivity | ].
    apply negb_true_iff, H, Ha. }
  split; [ unfold footer; now rewrite E | ].
  rewrite E. cbn [generateComment]. unfold report_head.
  rewrite <- !append_assoc. eexists. reflexivity.
Qed.

Lemma footer_shows_report_average_witness :
  let a := mkAxis "a" "Speed" 0.25 in
  let rest := [mkAxis "b" "" (-0); mkAxis "c" "Focus" 7] in
  no_NaN (a :: rest) = true
  /\ footer (a :: rest) = "平均: " ++ avg (a :: rest).
Proof.
  split; [ reflexivity | ].
  refine (proj1 (footer_shows_report_average _ _ _)). reflexivity.
Defined.

(** X14: when a value is NaN, the average of the report reads "NaN": the
    report begins with its heading and the words for the average followed
    by "NaN". *)
Theorem report_average_NaN (a0 : Axis) (rest : list Axis) :
  existsb (fun a => is_nan (value a)) (a0 :: rest) = true ->
  avg (a0 :: rest) = "NaN"
  /\ exists tail,
       generateComment (a0 :: rest)
       = "【サマリー】" ++ LF ++ "平均スコアはNaN" ++ tail.
Proof.
  intros H.
  assert (E : avg (a0 :: rest) = "NaN").
  { unfold avg. rewrite (sum_with_nan _ _ H), div_nan_l. reflexivity. }
  split; [ exact E | ].
  cbn [generateComment]. unfold report_head. rewrite E.
  rewrite <- !append_assoc. eexists. reflexivity.
Qed.

Lemma report_average_NaN_witness :
  let a := mkAxis "a" "Speed" 3 in
  let rest := [mkAxis "b" "Focus" nan] in
  existsb (fun x => is_nan (value x)) (a :: rest) = true
  /\ avg (a :: rest) = "NaN".
Proof.
  split; [ reflexivity | ].
  refine (proj1 (report_average_NaN _ _ _)). reflexivity.
Defined.

(** X15: on a collection without NaN, the axis named as the strongest is
    the first whose raw value no value exceeds, and the axis named as the
    weakest is the first whose raw value exceeds none. *)
Theorem first_extremum_by_raw_value (a0 : Axis) (rest : list Axis) :
  no_NaN (a0 :: rest) = true ->
  first_max_spec (a0 :: rest) = Some (highest a0 rest)
  /\ first_min_spec (a0 :: rest) = Some (lowest a0 rest).
Proof.
  intros H. split; [ now apply highest_first_max | now apply lowest_first_min ].
Qed.

Lemma first_extremum_by_raw_value_witness :
  let a := mkAxis "a" "Speed" 3 in
  let rest := [mkAxis "b" "Accuracy" 4; mkAxis "c" "Focus" 3; mkAxis "d" "Grit" 4] in
  no_NaN (a :: rest) = true
  /\ first_max_spec (a :: rest) = Some (highest a rest)
  /\ first_min_spec (a :: rest) = Some (lowest a rest).
Proof.
  split; [ reflexivity | ].
  apply first_extremum_by_raw_value. reflexivity.
Defined.

(** X16: the strongest and the weakest axis of the report are axes of the
    collection. *)
Theorem highest_lowest_members (a0 : Axis) (rest : list Axis) :
  In (highest a0 rest) (a0 :: rest) /\ In (lowest a0 rest) (a0 :: rest).
Proof. split; [ apply highest_In | apply lowest_In ]. Qed.

(** X17: when the value of the first axis is NaN, the first axis is named
    both as the strongest and as the weakest, whatever the other values. *)
Theorem first_NaN_is_highest_and_lowest (a0 : Axis) (rest : list Axis) :
  is_nan (value a0) = true ->
  highest a0 rest = a0 /\ lowest a0 rest = a0.
Proof.
  intros H%is_nan_true.
  split;
    [ apply (scan_first_stays PrimFloat.ltb)
    | apply (scan_first_stays (fun x y => PrimFloat.ltb y x)) ];
    apply forallb_forall; intros c _; apply negb_true_iff; rewrite H.
  - destruct (nan <? value c)%float eqn:E; [ | reflexivity ].
    now apply ltb_true_iff in E as [E _].
  - destruct (value c <? nan)%float eqn:E; [ | reflexivity ].
    now apply ltb_true_iff in E as (_ & E & _).
Qed.

Lemma first_NaN_is_highest_and_lowest_witness :
  let a := mkAxis "a" "Speed" nan in
  let rest := [mkAxis "b" "Accuracy" 4; mkAxis "c" "Focus" 1] in
  is_nan (value a) = true /\ highest a rest = a /\ lowest a rest = a.
Proof.
  split; [ reflexivity | ].
  apply first_NaN_is_highest_and_lowest. reflexivity.
Defined.

(** X18: when every later value equals the first one, the first axis is
    named both as the strongest and as the weakest. *)
Theorem all_tied_first_axis (a0 : Axis) (rest : list Axis) :
  forallb (fun c => (value c =? value a0)%float) rest = true ->
  highest a0 rest = a0 /\ lowest a0 rest = a0.
Proof.
  intros H. rewrite forallb_forall in H.
  split;
    [ apply (scan_first_stays PrimFloat.ltb)
    | apply (scan_first_stays (fun x y => PrimFloat.ltb y x)) ];
    apply forallb_forall; intros c Hc; apply negb_true_iff;
    specialize (H c Hc); apply eqb_true_iff in H as (Nc & N0 & R).
  - destruct (value a0 <? value c)%float eqn:E; [ | reflexivity ].
    apply ltb_true_iff in E as (_ & _ & E). rewrite R in E.
    now apply lex_lt_irrefl in E.
  - destruct (value c <? value a0)%float eqn:E; [ | reflexivity ].
    apply ltb_true_iff in E as (_ & _ & E). rewrite R in E.
    now apply lex_lt_irrefl in E.
Qed.

Lemma all_tied_first_axis_witness :
  let a := mkAxis "a" "Speed" 5 in
  let rest := [mkAxis "b" "Accuracy" 5; mkAxis "c" "Focus" 5] in
  forallb (fun c => (value c =? value a)%float) rest = true
  /\ highest a rest = a /\ lowest a rest = a.
Proof.
  split; [ reflexivity | ].
  apply all_tied_first_axis. reflexivity.
Defined.

(** X19: right after an axis is added, the report makes at least one
    suggestion, so that it ends with a line feed and never with the message
    that the present level can be kept. *)
Theorem report_after_addAxis (r : string) (prev : list Axis) :
  truthy (suggestions (addAxis r prev)) = true
  /\ ends_with_LF (generateComment (addAxis r prev)) = true.
Proof.
  assert (T : truthy (suggestions (addAxis r prev)) = true).
  { rewrite truthy_suggestions. unfold addAxis. rewrite existsb_app. cbn.
    apply orb_true_r. }
  split; [ exact T | ].
  destruct (addAxis r prev) as [ | a rest] eqn:E.
  - unfold addAxis in E. now destruct prev.
  - cbn [generateComment]. rewrite T.
    rewrite !ends_with_LF_app
      by (rewrite ?truthy_app; cbn; rewrite ?orb_true_r; reflexivity).
    reflexivity.
Qed.

(** X20: on a collection whose values all lie between 0 and 5, as the
    updates of the collection keep them, the report is the report on the
    collection with its values clamped. *)
Theorem generateComment_reclamped_in_range (axes : list Axis) :
  all_in_range axes = true ->
  generateComment (reclamped axes) = generateComment axes.
Proof.
  destruct axes as [ | a0 rest]; [ reflexivity | ]. intros H.
  assert (Hh : in_range (value (highest a0 rest)) = true).
  { unfold all_in_range in H. rewrite forallb_forall in H.
    apply (H _ (highest_In a0 rest)). }
  assert (Hl : in_range (value (lowest a0 rest)) = true).
  { unfold all_in_range in H. rewrite forallb_forall in H.
    apply (H _ (lowest_In a0 rest)). }
  change (reclamped (a0 :: rest))
    with (mkAxis (id a0) (label a0) (clamp (value a0) 0 5) :: reclamped rest).
  cbn [generateComment].
  change (mkAxis (id a0) (label a0) (clamp (value a0) 0 5) :: reclamped rest)
    with (reclamped (a0 :: rest)).
  rewrite suggestions_reclamped. f_equal.
  unfold report_head.
  change (mkAxis (id a0) (label a0) (clamp (value a0) 0 5) :: reclamped rest)
    with (reclamped (a0 :: rest)).
  rewrite avg_reclamped, (bullets_reclamped _ H).
  rewrite (highest_reclamped a0 rest H), (lowest_reclamped a0 rest H).
  cbn [label value].
  now rewrite (Number_toString_clamp_in_range _ Hh),
    (Number_toString_clamp_in_range _ Hl).
Qed.

Lemma generateComment_reclamped_in_range_witness :
  let axes := [mkAxis "a" "Speed" 3.5; mkAxis "b" "Focus" (-0); mkAxis "c" "Grit" 5] in
  all_in_range axes = true
  /\ generateComment (reclamped axes) = generateComment axes.
Proof.
  split; [ reflexivity | ].
  apply generateComment_reclamped_in_range. reflexivity.
Defined.
